(** * Azure image-processing function: a shallow embedding of ProcessImage.ts

    The repository carries three revisions of the same Event Grid handler:
    - [src/functions/ProcessImage.ts]  (module [Functions]),
    - an unnamed revision of 95 lines  (module [Part000]),
    - an unnamed revision of 124 lines (module [Part001]).

    Each revision is embedded as written.  The storage SDK, the Jimp image
    library and the invocation context are collaborators of the handler: their
    answers are fields of a record over which every definition is
    parametrised, and every storage call the handler makes is recorded in a
    trace. *)

From Stdlib Require Import List String Ascii Bool Arith Lia.
From Stdlib Require Import Strings.Byte DecimalString.
Import ListNotations.
Open Scope string_scope.
Open Scope list_scope.

Set Implicit Arguments.

(** ** JavaScript values reaching the handler *)

(** A JSON value as the trigger delivers it in [event.data.url], plus
    [undefined] for an absent property.  Only truthiness and printing are
    ever asked of a value that is not a string: numbers are kept as
    naturals, arrays and objects as one opaque value. *)
Inductive JsValue : Type :=
| JsUndefined
| JsNull
| JsBool (b : bool)
| JsNumber (n : nat)
| JsString (s : string)
| JsObject.

(** [!v] is true exactly on the falsy values. *)
Definition truthy (v : JsValue) : bool :=
  match v with
  | JsUndefined | JsNull => false
  | JsBool b => b
  | JsNumber n => negb (Nat.eqb n 0)
  | JsString s => negb (String.eqb s "")
  | JsObject => true
  end.

(** A thrown value: an [Error] object with its [name] and [message]. *)
Record JsError : Type := mkError { errName : string; errMessage : string }.

(** [new Error(msg)] *)
Definition Error (msg : string) : JsError := mkError "Error" msg.
Definition TypeError (msg : string) : JsError := mkError "TypeError" msg.

(** [Error.prototype.toString], as used by the template literal [`${error}`]. *)
Definition errToString (e : JsError) : string :=
  if String.eqb (errName e) "" then errMessage e
  else if String.eqb (errMessage e) "" then errName e
  else errName e ++ ": " ++ errMessage e.

(** [`${v}`] for an optional string ([undefined] prints as its name). *)
Definition showOpt (o : option string) : string :=
  match o with
  | Some s => s
  | None => "undefined"
  end.

(** ** [String.prototype.split] with a one-character separator, and
    [Array.prototype.pop] *)

Fixpoint split (sep : ascii) (s : string) : list string :=
  match s with
  | EmptyString => [EmptyString]
  | String c rest =>
      if Ascii.eqb c sep then EmptyString :: split sep rest
      else match split sep rest with
           | seg :: segs => String c seg :: segs
           | [] => [String c EmptyString]
           end
  end.

(** [arr.pop()] returns the last element, [undefined] on an empty array. *)
Fixpoint pop (A : Type) (arr : list A) : option A :=
  match arr with
  | [] => None
  | [x] => Some x
  | _ :: tl => pop tl
  end.

(** [blobUrl.split('/')]: only strings carry the method; on any other truthy
    JSON value the call is a [TypeError]. *)
Definition split_method (v : JsValue) : JsError + list string :=
  match v with
  | JsString s => inr (split "/"%char s)
  | JsUndefined | JsNull =>
      inl (TypeError "Cannot read properties of undefined (reading 'split')")
  | _ => inl (TypeError "blobUrl.split is not a function")
  end.

(** [`processed-${blobName}`] *)
Definition processedBlobName (blobName : string) : string :=
  "processed-" ++ blobName.

(** ** Promises *)

(** The state in which an awaited promise ends: settled one way or the other,
    or never settled. *)
Inductive Promise (A : Type) : Type :=
| Resolved (a : A)
| Rejected (e : JsError)
| Pending.
Arguments Rejected {A} e.
Arguments Pending {A}.

(** [resolve(v)] and [reject(e)] only act on a promise that is still pending. *)
Definition resolve (A : Type) (v : A) (p : Promise A) : Promise A :=
  match p with
  | Pending => Resolved v
  | _ => p
  end.

Definition reject (A : Type) (e : JsError) (p : Promise A) : Promise A :=
  match p with
  | Pending => Rejected e
  | _ => p
  end.

(** ** Readable streams and [streamToBuffer] *)

Definition Buffer : Type := list byte.

(** What a ['data'] event carries: a [Buffer], or something [Buffer.from]
    converts (a [Uint8Array], or a string encoded as UTF-8). *)
Inductive Chunk : Type :=
| ChunkBuffer (b : Buffer)
| ChunkUint8Array (b : list byte)
| ChunkString (s : string).

Definition Buffer_from (c : Chunk) : Buffer :=
  match c with
  | ChunkBuffer b => b
  | ChunkUint8Array b => b
  | ChunkString s => list_byte_of_string s
  end.

(** [data instanceof Buffer ? data : Buffer.from(data)] *)
Definition toBuffer (c : Chunk) : Buffer :=
  match c with
  | ChunkBuffer b => b
  | _ => Buffer_from c
  end.

(** [Buffer.concat(chunks)] *)
Definition Buffer_concat (chunks : list Buffer) : Buffer := List.concat chunks.

(** The events a readable stream emits, in order, once listeners are
    attached. *)
Inductive StreamEvent : Type :=
| EvData (c : Chunk)
| EvEnd
| EvError (e : JsError).

Definition ReadableStream : Type := list StreamEvent.

(** Which of the three listeners of [streamToBuffer] are attached. *)
Record Listeners : Type := mkListeners {
  onData : bool;
  onEnd : bool;
  onError : bool
}.

Inductive EventName : Type := NameData | NameEnd | NameError.

Definition attach (n : EventName) (l : Listeners) : Listeners :=
  match n with
  | NameData => mkListeners true (onEnd l) (onError l)
  | NameEnd => mkListeners (onData l) true (onError l)
  | NameError => mkListeners (onData l) (onEnd l) true
  end.

(** [readableStream?.on(name, ...)]: skipped on an absent stream. *)
Definition optional_on (rs : option ReadableStream) (n : EventName)
    (l : Listeners) : Listeners :=
  match rs with
  | Some _ => attach n l
  | None => l
  end.

(** [readableStream.on(name, ...)]: a property read on [null] throws. *)
Definition on (rs : option ReadableStream) (n : EventName)
    (l : Listeners) : JsError + Listeners :=
  match rs with
  | Some _ => inr (attach n l)
  | None => inl (TypeError "Cannot read properties of null (reading 'on')")
  end.

(** The executor's local state: the [chunks] array and the promise. *)
Record Collector : Type := mkCollector {
  chunks : list Buffer;
  promise : Promise Buffer
}.

(** Delivery of one event to the attached listeners. *)
Definition deliver (l : Listeners) (c : Collector) (ev : StreamEvent)
    : Collector :=
  match ev with
  | EvData d =>
      if onData l then mkCollector (chunks c ++ [toBuffer d]) (promise c)
      else c
  | EvEnd =>
      if onEnd l
      then mkCollector (chunks c) (resolve (Buffer_concat (chunks c)) (promise c))
      else c
  | EvError e =>
      if onError l then mkCollector (chunks c) (reject e (promise c))
      else c
  end.

(** The stream emits its events once the executor has returned; an absent
    stream emits none. *)
Definition emit (rs : option ReadableStream) (l : Listeners) (c : Collector)
    : Collector :=
  match rs with
  | Some events => fold_left (deliver l) events c
  | None => c
  end.

(** [streamToBuffer], the same text in the three revisions.  An exception
    thrown inside the executor of [new Promise] rejects the promise. *)
Definition streamToBuffer (readableStream : option ReadableStream)
    : Promise Buffer :=
  let l0 := mkListeners false false false in
  let l1 := optional_on readableStream NameData l0 in
  let l2 := optional_on readableStream NameEnd l1 in
  match on readableStream NameError l2 with
  | inl thrown => Rejected thrown
  | inr l3 => promise (emit readableStream l3 (mkCollector [] Pending))
  end.

(** ** The trigger's event, the environment and the invocation context *)

Record EventData : Type := mkData { url : JsValue }.

(** The fields of [EventGridEvent] the handler reads; [data] may be absent. *)
Record EventGridEvent : Type := mkEvent { data : option EventData }.

(** [event.data?.url] *)
Definition data_url (event : EventGridEvent) : JsValue :=
  match data event with
  | Some d => url d
  | None => JsUndefined
  end.

(** [`${v}`] for a JSON value. *)
Definition showValue (v : JsValue) : string :=
  match v with
  | JsUndefined => "undefined"
  | JsNull => "null"
  | JsBool true => "true"
  | JsBool false => "false"
  | JsNumber n => DecimalString.NilEmpty.string_of_uint (Nat.to_uint n)
  | JsString s => s
  | JsObject => "[object Object]"
  end.

(** [process.env]: a variable that is not set reads as [undefined]. *)
Definition Env : Type := string -> option string.

(** [!v] on an optional string is false on [undefined] and on [""]. *)
Definition truthyOpt (o : option string) : bool :=
  match o with
  | Some s => negb (String.eqb s "")
  | None => false
  end.

(** ** Storage handles and the trace of storage calls *)

Record BlobServiceClient : Type := mkService { endpoint : string }.

Record ContainerClient : Type := mkContainer {
  service : BlobServiceClient;
  container_name : option string
}.

Record BlockBlobClient : Type := mkBlob {
  container : ContainerClient;
  name : string
}.

Record BlobDownloadResponse : Type := mkDownload {
  readableStreamBody : option ReadableStream
}.

Record ContainerCreateIfNotExistsResponse : Type := mkCreate {
  succeeded : bool
}.

(** Every use of the storage SDK, in the order the handler makes it. *)
Inductive Call : Type :=
| FromConnectionString (connectionString : option string)
| GetContainerClient (s : BlobServiceClient) (containerName : option string)
| GetBlockBlobClient (c : ContainerClient) (blobName : string)
| Download (b : BlockBlobClient)
| CreateIfNotExists (c : ContainerClient)
| Upload (b : BlockBlobClient) (body : Buffer) (contentLength : nat).

(** The calls that go to the storage service over the network; the others
    only build a client object locally. *)
Definition is_network_call (c : Call) : bool :=
  match c with
  | Download _ | CreateIfNotExists _ | Upload _ _ _ => true
  | _ => false
  end.

(** What [image.getBuffer(mime, cb)] does with its callback. *)
Inductive CallbackOutcome : Type :=
| CalledBack (err : option JsError) (buffer : Buffer)
| NeverCalledBack
| ThrewSync (e : JsError).

(** The answers of the collaborators.  [W] is the state of the storage
    service, [Image] the bitmap type of the image library.  The two client
    constructors of the SDK work locally, but they validate the name they
    are given and may throw on it ([getContainerClient] does on an empty
    container name): [containerClient_error] and [blockBlobClient_error]
    say when. *)
Record Collaborators (Image W : Type) : Type := mkCollaborators {
  fromConnectionString : option string -> JsError + BlobServiceClient;
  containerClient_error : BlobServiceClient -> option string -> option JsError;
  blockBlobClient_error : ContainerClient -> string -> option JsError;
  download : BlockBlobClient -> W -> W * Promise BlobDownloadResponse;
  createIfNotExists :
    ContainerClient -> W -> W * Promise ContainerCreateIfNotExistsResponse;
  upload : BlockBlobClient -> Buffer -> nat -> W -> W * Promise unit;
  Jimp_read : Buffer -> Promise Image;
  greyscale : Image -> JsError + Image;
  getBuffer : Image -> string -> Promise Buffer;
  getBuffer_cb : Image -> string -> CallbackOutcome
}.

Inductive LogArg : Type :=
| LStr (s : string)
| LEvent (e : EventGridEvent)
| LData (d : option EventData)
| LClient (b : BlockBlobClient).

(** A line written through [context.log] or [context.error]. *)
Inductive LogLine : Type :=
| Info (args : list LogArg)
| Failure (msg : string).

(** The state threaded through one invocation. *)
Record Run (W : Type) : Type := mkRun {
  world : W;
  calls : list Call;
  logs : list LogLine
}.

(** ** The monad of an [async] function body *)

Section AsyncMonad.
Variable W : Type.

Definition M (A : Type) : Type := Run W -> Run W * Promise A.

Definition ret (A : Type) (a : A) : M A := fun st => (st, Resolved a).

Definition throw (A : Type) (e : JsError) : M A := fun st => (st, Rejected e).

Definition bind (A B : Type) (m : M A) (k : A -> M B) : M B :=
  fun st =>
    match m st with
    | (st', Resolved a) => k a st'
    | (st', Rejected e) => (st', Rejected e)
    | (st', Pending) => (st', Pending)
    end.

(** [try { body } catch (error) { handler }] *)
Definition try_catch (A : Type) (body : M A) (handler : JsError -> M A)
    : M A :=
  fun st =>
    match body st with
    | (st', Rejected e) => handler e st'
    | r => r
    end.

(** [await p] for a promise whose fate is known. *)
Definition await (A : Type) (p : Promise A) : M A := fun st => (st, p).

(** A synchronous call that returns or throws. *)
Definition sync (A : Type) (r : JsError + A) : M A :=
  fun st =>
    match r with
    | inr a => (st, Resolved a)
    | inl e => (st, Rejected e)
    end.

Definition context_log (args : list LogArg) : M unit :=
  fun st => (mkRun (world st) (calls st) (logs st ++ [Info args]), Resolved tt).

Definition context_error (msg : string) : M unit :=
  fun st => (mkRun (world st) (calls st) (logs st ++ [Failure msg]), Resolved tt).

(** Record a storage call in the trace. *)
Definition record (c : Call) : M unit :=
  fun st => (mkRun (world st) (calls st ++ [c]) (logs st), Resolved tt).

(** A storage call over the network: recorded, then answered by the
    service, whose state it may change. *)
Definition network (A : Type) (c : Call) (f : W -> W * Promise A) : M A :=
  fun st =>
    let (w', p) := f (world st) in
    (mkRun w' (calls st ++ [c]) (logs st), p).

(** [if (cond) { throw e }] *)
Definition throw_if (cond : bool) (e : JsError) : M unit :=
  if cond then throw unit e else ret tt.
End AsyncMonad.
Arguments throw {W A} e _.

Declare Scope async_scope.
Delimit Scope async_scope with async.
Notation "x <- m ;; k" := (bind m (fun x => k))
  (at level 100, m at next level, right associativity) : async_scope.
Notation "m ;; k" := (bind m (fun _ => k))
  (at level 100, right associativity) : async_scope.
Open Scope async_scope.

(** The state in which an invocation starts. *)
Definition start (W : Type) (w : W) : Run W := mkRun w [] [].

(** The storage calls shared by the three revisions. *)
Section StorageCalls.
Context {Image W : Type} (sdk : Collaborators Image W).

(** [BlobServiceClient.fromConnectionString(cs)] *)
Definition BlobServiceClient_fromConnectionString (cs : option string)
    : M W BlobServiceClient :=
  record (FromConnectionString cs) ;;
  sync (fromConnectionString sdk cs).

(** A constructor of the SDK returns the client it built or throws. *)
Definition constructed (A : Type) (thrown : option JsError) (client : A)
    : JsError + A :=
  match thrown with
  | Some e => inl e
  | None => inr client
  end.

(** [client.getContainerClient(name)] *)
Definition getContainerClient (s : BlobServiceClient) (n : option string)
    : M W ContainerClient :=
  record (GetContainerClient s n) ;;
  sync (constructed (containerClient_error sdk s n) (mkContainer s n)).

(** [containerClient.getBlockBlobClient(blobName)] *)
Definition getBlockBlobClient (c : ContainerClient) (blobName : string)
    : M W BlockBlobClient :=
  record (GetBlockBlobClient c blobName) ;;
  sync (constructed (blockBlobClient_error sdk c blobName)
          (mkBlob c blobName)).

(** [await blockBlobClient.download()] *)
Definition blob_download (b : BlockBlobClient) : M W BlobDownloadResponse :=
  network (Download b) (download sdk b).

(** [await containerClient.createIfNotExists()] *)
Definition container_createIfNotExists (c : ContainerClient)
    : M W ContainerCreateIfNotExistsResponse :=
  network (CreateIfNotExists c) (createIfNotExists sdk c).

(** [await blockBlobClient.upload(body, contentLength)] *)
Definition blob_upload (b : BlockBlobClient) (body : Buffer) (len : nat)
    : M W unit :=
  network (Upload b body len) (upload sdk b body len).

(** The [if (!blobName) throw ...] guard, after which the name is a
    string. *)
Definition require_blobName (blobName : option string) : M W string :=
  match blobName with
  | Some n =>
      if truthyOpt blobName then ret n
      else throw (Error "Missing blob name")
  | None => throw (Error "Missing blob name")
  end.
End StorageCalls.

(** ** [src/functions/ProcessImage.ts] *)

Module Functions.
Section Handler.
Context {Image W : Type} (sdk : Collaborators Image W) (env : Env).

(** [getBufferAsync(image, mimeType)]: the promise wrapped around the
    callback of [image.getBuffer]. *)
Definition getBufferAsync (image : Image) (mimeType : string)
    : Promise Buffer :=
  match getBuffer_cb sdk image mimeType with
  | CalledBack (Some err) _ => reject err Pending
  | CalledBack None buffer => resolve buffer Pending
  | NeverCalledBack => Pending
  | ThrewSync e => Rejected e
  end.

(** The body of the [try] block. *)
Definition ProcessImage_try (event : EventGridEvent) : M W unit :=
  context_log [LStr "Event data: "; LData (data event)] ;;
  let blobUrl := data_url event in
  context_log [LStr ("Blob URL: " ++ showValue blobUrl)] ;;
  throw_if (negb (truthy blobUrl)) (Error "Missing blob URL") ;;
  segments <- sync (split_method blobUrl) ;;
  let blobName := pop segments in
  context_log [LStr ("Blob name: " ++ showOpt blobName)] ;;
  blobName <- require_blobName blobName ;;
  blobServiceClient <-
    BlobServiceClient_fromConnectionString sdk (env "AzureWebJobsStorage") ;;
  containerClient <-
    getContainerClient sdk blobServiceClient (env "BLOB_CONTAINER_NAME") ;;
  context_log [LStr "Container client created"] ;;
  blockBlobClient <- getBlockBlobClient sdk containerClient blobName ;;
  downloadBlockBlobResponse <- blob_download sdk blockBlobClient ;;
  context_log [LStr "Downloaded blob"] ;;
  imageBuffer <-
    await (streamToBuffer (readableStreamBody downloadBlockBlobResponse)) ;;
  context_log [LStr "Converted blob to buffer"] ;;
  image <- await (Jimp_read sdk imageBuffer) ;;
  context_log [LStr "Loaded image"] ;;
  image <- sync (greyscale sdk image) ;;
  context_log [LStr "Converted to greyscale"] ;;
  processedImageBuffer <- await (getBufferAsync image "image/png") ;;
  context_log [LStr "Processed image buffer ready"] ;;
  let processedBlobName := processedBlobName blobName in
  processedContainerClient <-
    getContainerClient sdk blobServiceClient
      (env "PROCESSED_BLOB_CONTAINER_NAME") ;;
  processedBlockBlobClient <-
    getBlockBlobClient sdk processedContainerClient processedBlobName ;;
  blob_upload sdk processedBlockBlobClient processedImageBuffer
    (List.length processedImageBuffer) ;;
  context_log [LStr ("Processed image uploaded to: " ++ processedBlobName)].

Definition ProcessImage (event : EventGridEvent) : M W unit :=
  context_log [LStr "Event grid function processed event:"; LEvent event] ;;
  try_catch (ProcessImage_try event)
    (fun error =>
       context_error ("Failed to process image: " ++ errToString error)).
End Handler.
End Functions.

(** ** The unnamed revision of 95 lines *)

Module Part000.
Section Handler.
Context {Image W : Type} (sdk : Collaborators Image W) (env : Env).

(** The body of the [try] block. *)
Definition ProcessImage_try (event : EventGridEvent) : M W unit :=
  let blobUrl := data_url event in
  throw_if (negb (truthy blobUrl)) (Error "Missing blob URL") ;;
  segments <- sync (split_method blobUrl) ;;
  let blobName := pop segments in
  context_log [LStr ("Blob name: " ++ showOpt blobName)] ;;
  blobName <- require_blobName blobName ;;
  blobServiceClient <-
    BlobServiceClient_fromConnectionString sdk (env "AzureWebJobsStorage") ;;
  let containerName := env "BLOB_CONTAINER_NAME" in
  throw_if (negb (truthyOpt containerName))
    (Error "BLOB_CONTAINER_NAME environment variable is not set.") ;;
  containerClient <-
    getContainerClient sdk blobServiceClient (env "BLOB_CONTAINER_NAME") ;;
  blockBlobClient <- getBlockBlobClient sdk containerClient blobName ;;
  downloadBlockBlobResponse <- blob_download sdk blockBlobClient ;;
  imageBuffer <-
    await (streamToBuffer (readableStreamBody downloadBlockBlobResponse)) ;;
  image <- await (Jimp_read sdk imageBuffer) ;;
  context_log [LStr "Loaded image"] ;;
  image <- sync (greyscale sdk image) ;;
  context_log [LStr "Converted to greyscale"] ;;
  processedImageBuffer <- await (getBuffer sdk image "image/jpeg") ;;
  context_log [LStr "Processed image buffer ready"] ;;
  let processedBlobName := processedBlobName blobName in
  processedContainerClient <-
    getContainerClient sdk blobServiceClient
      (env "PROCESSED_BLOB_CONTAINER_NAME") ;;
  createContainerResponse <-
    container_createIfNotExists sdk processedContainerClient ;;
  (if succeeded createContainerResponse
   then context_log
          [LStr ("Created container: "
                 ++ showOpt (container_name processedContainerClient))]
   else ret tt) ;;
  processedBlockBlobClient <-
    getBlockBlobClient sdk processedContainerClient processedBlobName ;;
  blob_upload sdk processedBlockBlobClient processedImageBuffer
    (List.length processedImageBuffer) ;;
  context_log [LStr ("Processed image uploaded to: " ++ processedBlobName)].

Definition ProcessImage (event : EventGridEvent) : M W unit :=
  context_log [LStr "Event grid function processed event:"; LEvent event] ;;
  try_catch (ProcessImage_try event)
    (fun error =>
       context_error ("Failed to process image: " ++ errToString error)).
End Handler.
End Part000.

(** ** The unnamed revision of 124 lines *)

Module Part001.
Section Handler.
Context {Image W : Type} (sdk : Collaborators Image W) (env : Env).

(** The body of the [try] block. *)
Definition ProcessImage_try (event : EventGridEvent) : M W unit :=
  context_log [LStr "Event data: "; LData (data event)] ;;
  let blobUrl := data_url event in
  context_log [LStr ("Blob URL: " ++ showValue blobUrl)] ;;
  throw_if (negb (truthy blobUrl)) (Error "Missing blob URL") ;;
  segments <- sync (split_method blobUrl) ;;
  let blobName := pop segments in
  context_log [LStr ("Encoded Blob name: " ++ showOpt blobName)] ;;
  blobName <- require_blobName blobName ;;
  blobServiceClient <-
    BlobServiceClient_fromConnectionString sdk (env "AzureWebJobsStorage") ;;
  let containerName := env "BLOB_CONTAINER_NAME" in
  context_log [LStr ("Using container name: " ++ showOpt containerName)] ;;
  throw_if (negb (truthyOpt containerName))
    (Error "BLOB_CONTAINER_NAME environment variable is not set.") ;;
  containerClient <-
    getContainerClient sdk blobServiceClient (env "BLOB_CONTAINER_NAME") ;;
  context_log [LStr "Container client created"] ;;
  blockBlobClient <- getBlockBlobClient sdk containerClient blobName ;;
  context_log [LClient blockBlobClient] ;;
  downloadBlockBlobResponse <- blob_download sdk blockBlobClient ;;
  context_log [LStr "Downloaded blob"] ;;
  imageBuffer <-
    await (streamToBuffer (readableStreamBody downloadBlockBlobResponse)) ;;
  context_log [LStr "Converted blob to buffer"] ;;
  image <- await (Jimp_read sdk imageBuffer) ;;
  context_log [LStr "Loaded image"] ;;
  image <- sync (greyscale sdk image) ;;
  context_log [LStr "Converted to greyscale"] ;;
  processedImageBuffer <- await (getBuffer sdk image "image/jpeg") ;;
  context_log [LStr "Processed image buffer ready"] ;;
  let processedBlobName := processedBlobName blobName in
  processedContainerClient <-
    getContainerClient sdk blobServiceClient
      (env "PROCESSED_BLOB_CONTAINER_NAME") ;;
  createContainerResponse <-
    container_createIfNotExists sdk processedContainerClient ;;
  (if succeeded createContainerResponse
   then context_log
          [LStr ("Created container: "
                 ++ showOpt (container_name processedContainerClient))]
   else ret tt) ;;
  processedBlockBlobClient <-
    getBlockBlobClient sdk processedContainerClient processedBlobName ;;
  blob_upload sdk processedBlockBlobClient processedImageBuffer
    (List.length processedImageBuffer) ;;
  context_log [LStr ("Processed image uploaded to: " ++ processedBlobName)].

Definition ProcessImage (event : EventGridEvent) : M W unit :=
  context_log [LStr "Event grid function processed event:"; LEvent event] ;;
  try_catch (ProcessImage_try event)
    (fun error =>
       context_error ("Failed to process image: " ++ errToString error)).
End Handler.
End Part001.

(** ** A reference storage account and codec

    A small in-memory stand-in for the collaborators, on which the handler
    can be run: containers are association lists of blobs, an encoded image
    is its pixel bytes behind a one-byte signature ([0xff] for JPEG, [0x89]
    for PNG). *)

Module Reference.
Definition Blobs : Type := list (string * Buffer).
Definition Store : Type := list (string * Blobs).
Definition Image : Type := list byte.

Fixpoint lookup (A : Type) (k : string) (l : list (string * A)) : option A :=
  match l with
  | [] => None
  | (k', v) :: tl => if String.eqb k k' then Some v else lookup k tl
  end.

Fixpoint insert (A : Type) (k : string) (v : A) (l : list (string * A))
    : list (string * A) :=
  match l with
  | [] => [(k, v)]
  | (k', v') :: tl =>
      if String.eqb k k' then (k, v) :: tl else (k', v') :: insert k v tl
  end.

Definition RestError (code : string) : JsError := mkError "RestError" code.

Definition fromConnectionString (cs : option string)
    : JsError + BlobServiceClient :=
  match cs with
  | None =>
      inl (TypeError "Cannot read properties of undefined (reading 'startsWith')")
  | Some s =>
      if String.eqb s "" then inl (Error "Invalid connection string")
      else inr (mkService s)
  end.

Definition download (b : BlockBlobClient) (st : Store)
    : Store * Promise BlobDownloadResponse :=
  match lookup (showOpt (container_name (container b))) st with
  | None => (st, Rejected (RestError "ContainerNotFound"))
  | Some blobs =>
      match lookup (name b) blobs with
      | None => (st, Rejected (RestError "BlobNotFound"))
      | Some bytes =>
          (st, Resolved (mkDownload (Some [EvData (ChunkBuffer bytes); EvEnd])))
      end
  end.

Definition createIfNotExists (c : ContainerClient) (st : Store)
    : Store * Promise ContainerCreateIfNotExistsResponse :=
  match lookup (showOpt (container_name c)) st with
  | Some _ => (st, Resolved (mkCreate false))
  | None => (insert (showOpt (container_name c)) [] st, Resolved (mkCreate true))
  end.

Definition upload (b : BlockBlobClient) (body : Buffer) (len : nat)
    (st : Store) : Store * Promise unit :=
  match lookup (showOpt (container_name (container b))) st with
  | None => (st, Rejected (RestError "ContainerNotFound"))
  | Some blobs =>
      (insert (showOpt (container_name (container b)))
         (insert (name b) body blobs) st,
       Resolved tt)
  end.

Definition Jimp_read (buf : Buffer) : Promise Image :=
  match buf with
  | x :: pixels =>
      if Byte.eqb x xff || Byte.eqb x x89 then Resolved pixels
      else Rejected (Error "Could not find MIME for Buffer")
  | [] => Rejected (Error "Could not find MIME for Buffer")
  end.

Definition encode (image : Image) (mime : string) : JsError + Buffer :=
  if String.eqb mime "image/jpeg" then inr (xff :: image)
  else if String.eqb mime "image/png" then inr (x89 :: image)
  else inl (Error "Unsupported MIME type").

Definition getBuffer (image : Image) (mime : string) : Promise Buffer :=
  match encode image mime with
  | inr b => Resolved b
  | inl e => Rejected e
  end.

(** The [getBuffer] of the jimp release that exports [Jimp] by name takes
    a MIME type and options and returns a promise; a function passed as
    second argument is never invoked. *)
Definition getBuffer_cb (image : Image) (mime : string) : CallbackOutcome :=
  NeverCalledBack.

(** [getContainerClient] refuses an empty container name; an unset one is
    turned into the text [undefined]. *)
Definition containerClient_error (s : BlobServiceClient) (n : option string)
    : option JsError :=
  match n with
  | Some c =>
      if String.eqb c ""
      then Some (Error "Unable to extract containerName with provided information.")
      else None
  | None => None
  end.

Definition blockBlobClient_error (c : ContainerClient) (blobName : string)
    : option JsError := None.

Definition sdk : Collaborators Image Store :=
  mkCollaborators fromConnectionString
    containerClient_error blockBlobClient_error
    download createIfNotExists upload
    Jimp_read (fun image => inr image) getBuffer getBuffer_cb.

(** An environment with the three settings in place. *)
Definition env : Env := fun key =>
  if String.eqb key "AzureWebJobsStorage" then Some "UseDevelopmentStorage=true"
  else if String.eqb key "BLOB_CONTAINER_NAME" then Some "in"
  else if String.eqb key "PROCESSED_BLOB_CONTAINER_NAME" then Some "out"
  else None.

(** The same environment without [BLOB_CONTAINER_NAME]. *)
Definition env_no_container : Env := fun key =>
  if String.eqb key "BLOB_CONTAINER_NAME" then None else env key.

(** The environment with [BLOB_CONTAINER_NAME] set to the empty string. *)
Definition env_empty_container : Env := fun key =>
  if String.eqb key "BLOB_CONTAINER_NAME" then Some "" else env key.

Definition cat_png : Buffer := [x89; x01; x02; x03].

(** An account holding [in/cat.png] and an empty [out] container. *)
Definition account : Store := [("in", [("cat.png", cat_png)]); ("out", [])].

Definition created (u : string) : EventGridEvent :=
  mkEvent (Some (mkData (JsString u))).

Definition cat_event : EventGridEvent :=
  created "https://acct.blob.core.windows.net/in/cat.png".

Definition dev_service : BlobServiceClient :=
  mkService "UseDevelopmentStorage=true".

(** The destination blob of [cat_event]. *)
Definition processed_cat : BlockBlobClient :=
  mkBlob (mkContainer dev_service (Some "out")) "processed-cat.png".
(** An image library whose [getBuffer] takes no callback: the one it is
    given is never invoked. *)
Definition sdk_silent_encoder : Collaborators Image Store :=
  mkCollaborators fromConnectionString
    containerClient_error blockBlobClient_error
    download createIfNotExists upload
    Jimp_read (fun image => inr image) getBuffer
    (fun _ _ => NeverCalledBack).

(** A storage service whose download response carries no body. *)
Definition sdk_no_body : Collaborators Image Store :=
  mkCollaborators fromConnectionString
    containerClient_error blockBlobClient_error
    (fun _ st => (st, Resolved (mkDownload None)))
    createIfNotExists upload
    Jimp_read (fun image => inr image) getBuffer getBuffer_cb.

(** A storage service whose download body delivers one chunk and then
    neither ends nor fails. *)
Definition sdk_stalled : Collaborators Image Store :=
  mkCollaborators fromConnectionString
    containerClient_error blockBlobClient_error
    (fun _ st =>
       (st, Resolved (mkDownload (Some [EvData (ChunkBuffer cat_png)]))))
    createIfNotExists upload
    Jimp_read (fun image => inr image) getBuffer getBuffer_cb.

(** The source blob of [cat_event]. *)
Definition source_cat : BlockBlobClient :=
  mkBlob (mkContainer dev_service (Some "in")) "cat.png".

(** An account whose only blob is a text file. *)
Definition text_account : Store := [("in", [("notes.txt", [x68; x69])])].
End Reference.

(** ** Observations on a finished invocation *)

(** The three revisions behind one name. *)
Inductive Revision : Type := FunctionsTs | Part000Ts | Part001Ts.

Definition ProcessImage_of (rev : Revision) {Image W : Type}
    (sdk : Collaborators Image W) (env : Env) (event : EventGridEvent)
    : M W unit :=
  match rev with
  | FunctionsTs => Functions.ProcessImage sdk env event
  | Part000Ts => Part000.ProcessImage sdk env event
  | Part001Ts => Part001.ProcessImage sdk env event
  end.

Definition ProcessImage_try_of (rev : Revision) {Image W : Type}
    (sdk : Collaborators Image W) (env : Env) (event : EventGridEvent)
    : M W unit :=
  match rev with
  | FunctionsTs => Functions.ProcessImage_try sdk env event
  | Part000Ts => Part000.ProcessImage_try sdk env event
  | Part001Ts => Part001.ProcessImage_try sdk env event
  end.

(** The terminal state of a pipeline run, as the log shows it. *)
Inductive RunOutcome : Type :=
| Success
| Failed (reason : string).

(** A run that returned has failed exactly when its last log line was written
    by [context.error]; a run whose promise never settles has no outcome. *)
Definition run_outcome (W : Type) (r : Run W * Promise unit)
    : option RunOutcome :=
  match snd r with
  | Resolved _ =>
      match List.last (logs (fst r)) (Info []) with
      | Failure msg => Some (Failed msg)
      | Info _ => Some Success
      end
  | _ => None
  end.

Definition is_upload (c : Call) : bool :=
  match c with Upload _ _ _ => true | _ => false end.

Definition is_createIfNotExists (c : Call) : bool :=
  match c with CreateIfNotExists _ => true | _ => false end.

(** [contains c s]: the character [c] occurs in [s]. *)
Fixpoint contains (c : ascii) (s : string) : bool :=
  match s with
  | EmptyString => false
  | String a rest => Ascii.eqb a c || contains c rest
  end.

(** [data.url] is missing ([undefined], also when [data] is absent, or
    [null]) or the empty string. *)
Definition missing_or_empty (v : JsValue) : Prop :=
  v = JsUndefined \/ v = JsNull \/ v = JsString "".

(** Further observations on the trace and the log. *)

Definition is_download (c : Call) : bool :=
  match c with Download _ => true | _ => false end.

Definition is_failure (l : LogLine) : bool :=
  match l with Failure _ => true | Info _ => false end.

(** The SDK method behind a call of the trace. *)
Inductive CallKind : Type :=
| KFromConnectionString
| KGetContainerClient
| KGetBlockBlobClient
| KDownload
| KCreateIfNotExists
| KUpload.

Definition call_kind (c : Call) : CallKind :=
  match c with
  | FromConnectionString _ => KFromConnectionString
  | GetContainerClient _ _ => KGetContainerClient
  | GetBlockBlobClient _ _ => KGetBlockBlobClient
  | Download _ => KDownload
  | CreateIfNotExists _ => KCreateIfNotExists
  | Upload _ _ _ => KUpload
  end.

(** The SDK methods in the order the text of each revision calls them. *)
Definition call_order (rev : Revision) : list CallKind :=
  match rev with
  | FunctionsTs =>
      [KFromConnectionString; KGetContainerClient; KGetBlockBlobClient;
       KDownload; KGetContainerClient; KGetBlockBlobClient; KUpload]
  | Part000Ts | Part001Ts =>
      [KFromConnectionString; KGetContainerClient; KGetBlockBlobClient;
       KDownload; KGetContainerClient; KCreateIfNotExists;
       KGetBlockBlobClient; KUpload]
  end.

(** * Properties *)

(** ** The stream collector *)

Lemma fold_deliver_data (l : Listeners) (cs : list Chunk) (acc : list Buffer)
    (p : Promise Buffer) (rest : list StreamEvent) :
  onData l = true ->
  fold_left (deliver l) (map EvData cs ++ rest) (mkCollector acc p)
  = fold_left (deliver l) rest (mkCollector (acc ++ map toBuffer cs) p).
Proof.
  intros Hd. revert acc.
  induction cs as [|c cs IH]; intros acc; simpl.
  - now rewrite app_nil_r.
  - rewrite Hd. simpl. rewrite IH. now rewrite <- app_assoc.
Qed.

(** Once the promise is settled no later event changes it. *)
Lemma fold_deliver_settled (l : Listeners) (evs : list StreamEvent)
    (acc : list Buffer) (p : Promise Buffer) :
  p <> Pending ->
  promise (fold_left (deliver l) evs (mkCollector acc p)) = p.
Proof.
  revert acc. induction evs as [|ev evs IH]; intros acc Hp; simpl.
  - reflexivity.
  - destruct ev as [d| |e]; simpl.
    + destruct (onData l); simpl; now apply IH.
    + destruct (onEnd l); simpl; [|now apply IH].
      destruct p; simpl; try congruence; now apply IH.
    + destruct (onError l); simpl; [|now apply IH].
      destruct p; simpl; try congruence; now apply IH.
Qed.


(** C2: on an absent byte source the third registration,
    [readableStream.on('error', reject)], reads a property of [null]; the
    executor throws and [streamToBuffer] rejects with that [TypeError]
    instead of resolving with an empty buffer. *)
Theorem streamToBuffer_null_rejects :
  streamToBuffer None
  = Rejected (TypeError "Cannot read properties of null (reading 'on')")
  /\ streamToBuffer None <> Resolved [].
Proof.
  split; [reflexivity | discriminate].
Qed.

(** ** Identity extraction *)

Lemma split_not_nil (sep : ascii) (s : string) : split sep s <> [].
Proof.
  destruct s as [|c rest]; simpl; [discriminate|].
  destruct (Ascii.eqb c sep); [discriminate|].
  destruct (split sep rest); discriminate.
Qed.

Lemma split_no_separator (sep : ascii) (s : string) :
  contains sep s = false -> split sep s = [s].
Proof.
  induction s as [|c rest IH]; simpl; intros H; [reflexivity|].
  apply orb_false_iff in H. destruct H as [Hc Hrest].
  rewrite Hc, (IH Hrest). reflexivity.
Qed.

Lemma pop_cons2 (A : Type) (x y : A) (l : list A) :
  pop (x :: y :: l) = pop (y :: l).
Proof. reflexivity. Qed.

Lemma pop_cons (A : Type) (x : A) (l : list A) :
  l <> [] -> pop (x :: l) = pop l.
Proof. destruct l; [congruence | reflexivity]. Qed.

(** With a separator in it, a string splits into at least two segments. *)
Lemma split_two (sep : ascii) (pre seg : string) :
  exists x y l, split sep (pre ++ String sep seg) = x :: y :: l.
Proof.
  induction pre as [|c pre IH]; simpl.
  - rewrite Ascii.eqb_refl.
    destruct (split sep seg) as [|y l] eqn:E; [now apply split_not_nil in E|].
    now exists EmptyString, y, l.
  - destruct IH as (x & y & l & E). rewrite E.
    destruct (Ascii.eqb c sep); eauto.
Qed.

(** [split] then [pop] keeps what follows the last separator. *)
Lemma pop_split_after (sep : ascii) (pre seg : string) :
  pop (split sep (pre ++ String sep seg)) = pop (split sep seg).
Proof.
  induction pre as [|c pre IH]; simpl.
  - rewrite Ascii.eqb_refl. apply pop_cons, split_not_nil.
  - destruct (split_two sep pre seg) as (x & y & l & E).
    rewrite E in *. destruct (Ascii.eqb c sep).
    + now rewrite pop_cons by discriminate.
    + rewrite pop_cons2. now rewrite pop_cons2 in IH.
Qed.

Lemma pop_split_final_segment (pre seg : string) :
  contains "/"%char seg = false ->
  pop (split "/"%char (pre ++ String "/"%char seg)) = Some seg.
Proof.
  intros H. rewrite pop_split_after, split_no_separator by exact H.
  reflexivity.
Qed.

(** ** Running a handler against arbitrary collaborators *)

(** The innermost stuck [match] of the goal decides the next step of the
    run: a test of the handler or an answer of a collaborator. *)
Ltac destruct_scrutinee :=
  match goal with
  | |- context [match ?x with _ => _ end] =>
      lazymatch x with
      | context [match _ with _ => _ end] => fail
      | _ => destruct x eqn:?
      end
  end.

Ltac unfold_handlers :=
  unfold ProcessImage_of, ProcessImage_try_of,
    Functions.ProcessImage, Part000.ProcessImage, Part001.ProcessImage,
    Functions.ProcessImage_try, Part000.ProcessImage_try,
    Part001.ProcessImage_try, Functions.getBufferAsync, run_outcome.

Ltac unfold_async :=
  unfold BlobServiceClient_fromConnectionString, getContainerClient,
    getBlockBlobClient, blob_download, container_createIfNotExists,
    blob_upload, require_blobName, throw_if, constructed;
  unfold try_catch, bind, ret, throw, sync, await, context_log,
    context_error, record, network, start.

Ltac run_handler :=
  unfold_async; cbn;
  repeat (destruct_scrutinee; cbn; try discriminate).

(** A branch in which the callback of [getBuffer] was invoked, against the
    hypothesis [Hcb] that it never is. *)
Ltac never_called_back Hcb :=
  match goal with
  | H : getBuffer_cb _ _ "image/png" = _ |- _ =>
      rewrite (Hcb eq_refl) in H; discriminate H
  end.

(** The client the factory returned is the one named in [Hclient]. *)
Ltac same_client Hclient :=
  try match goal with
      | H : fromConnectionString _ _ = inr ?b |- _ =>
          match type of Hclient with
          | _ = inr ?c =>
              tryif constr_eq b c then fail
              else (assert (b = c) by congruence; subst b)
          end
      end.

(** Membership in a log that has been computed: the lines are told apart
    by their text. *)
Ltac in_log H :=
  simpl in H;
  repeat (destruct H as [H|H]; [try (cbv in H; discriminate H)|]);
  try contradiction H.

(** Membership in a trace that has been computed. *)
Ltac in_trace H :=
  simpl in H;
  repeat (destruct H as [H|H]; [try discriminate H|]);
  try contradiction H.

Unset Implicit Arguments.

Section Runs.
Context {Image W : Type} (sdk : Collaborators Image W) (env : Env).

Local Arguments String.append : simpl never.
Local Arguments errToString : simpl never.
Local Arguments showValue : simpl never.
Local Arguments showOpt : simpl never.
Local Arguments processedBlobName : simpl never.
Local Arguments streamToBuffer : simpl never.
Local Arguments split : simpl never.
Local Arguments pop : simpl never.

(** C4: a notification whose [data.url] is missing or empty ends the run
    in [Failed] with the missing-URL input error, in every revision, and
    the run makes no call to the storage SDK at all: no client is created,
    nothing is fetched, nothing is published, the account is untouched. *)
Theorem missing_url_fails_without_storage_calls :
  forall (rev : Revision) (event : EventGridEvent) (w : W),
    missing_or_empty (data_url event) ->
    let r := ProcessImage_of rev sdk env event (start w) in
    run_outcome r
    = Some (Failed "Failed to process image: Error: Missing blob URL")
    /\ calls (fst r) = []
    /\ world (fst r) = w.
Proof.
  intros rev event w H.
  destruct rev; cbv zeta; unfold_handlers;
    destruct H as [H|[H|H]]; rewrite H; cbn; auto.
Qed.

(** The [try]/[catch] frame shared by the three revisions, around any
    body. *)
Lemma catch_frame (first : list LogArg) (body : M W unit) (st : Run W) :
  let handler := fun error : JsError =>
    context_error (W := W)
      ("Failed to process image: " ++ errToString error) in
  let entered := mkRun (world st) (calls st) (logs st ++ [Info first]) in
  let r := (context_log first ;; try_catch body handler) st in
  (forall e, snd r <> Rejected e)
  /\ match body entered with
     | (st', Rejected e) =>
         r = (mkRun (world st') (calls st')
                (logs st'
                 ++ [Failure ("Failed to process image: " ++ errToString e)]),
              Resolved tt)
     | (st', Resolved _) => r = (st', Resolved tt)
     | (st', Pending) => r = (st', Pending)
     end.
Proof.
  cbv zeta. unfold bind, context_log, try_catch, context_error.
  destruct (body _) as [st' [[]|e|]]; split;
    try reflexivity; intros ?; discriminate.
Qed.

(** C6: whatever the notification and whatever the collaborators answer,
    [ProcessImage] never rejects; an error thrown anywhere in the [try]
    block is caught, written to the log through [context.error], and the
    function returns normally. *)
Theorem ProcessImage_never_rejects :
  forall (rev : Revision) (event : EventGridEvent) (st : Run W),
    (forall e, snd (ProcessImage_of rev sdk env event st) <> Rejected e)
    /\ let entered :=
         mkRun (world st) (calls st)
           (logs st
            ++ [Info [LStr "Event grid function processed event:";
                      LEvent event]]) in
       match ProcessImage_try_of rev sdk env event entered with
       | (st', Rejected e) =>
           ProcessImage_of rev sdk env event st
           = (mkRun (world st') (calls st')
                (logs st'
                 ++ [Failure ("Failed to process image: " ++ errToString e)]),
              Resolved tt)
       | (st', Resolved _) =>
           ProcessImage_of rev sdk env event st = (st', Resolved tt)
       | (st', Pending) =>
           ProcessImage_of rev sdk env event st = (st', Pending)
       end.
Proof.
  intros rev event st. destruct rev; apply catch_frame.
Qed.

(** C1: for every successful run the bytes published are the JPEG encoding
    of the greyscaled decoding of the bytes collected from the source
    object, whatever format those bytes had, and they are the only object
    the run publishes.  The two unnamed revisions call
    [image.getBuffer('image/jpeg')].  [src/functions/ProcessImage.ts] asks
    for ['image/png'] through the callback of [getBufferAsync]; the file
    imports [Jimp] by name, and the [getBuffer] of that release returns a
    promise and never invokes a callback, so that revision has no
    successful run. *)
Theorem published_bytes_are_jpeg_encoding :
  forall (rev : Revision) (event : EventGridEvent) (w : W),
    (rev = FunctionsTs ->
     forall image, getBuffer_cb sdk image "image/png" = NeverCalledBack) ->
    let r := ProcessImage_of rev sdk env event (start w) in
    run_outcome r = Some Success ->
    exists source w1 resp bytes decoded image body dest,
      download sdk source w = (w1, Resolved resp)
      /\ streamToBuffer (readableStreamBody resp) = Resolved bytes
      /\ Jimp_read sdk bytes = Resolved decoded
      /\ greyscale sdk decoded = inr image
      /\ getBuffer sdk image "image/jpeg" = Resolved body
      /\ filter is_upload (calls (fst r))
         = [Upload dest body (List.length body)].
Proof.
  intros rev event w Hcb; destruct rev; cbv zeta; unfold_handlers;
    run_handler; try never_called_back Hcb;
    intros _; repeat eexists; eauto.
Qed.

(** C3: a run that has its encoded buffer ready and obtains the client of
    the container named by [PROCESSED_BLOB_CONTAINER_NAME] calls
    [createIfNotExists] on it; a write to the destination is the last
    storage call of the run and comes directly after a [createIfNotExists]
    on the same container that completed, with only the blob client built
    in between; the object is named [processed-] plus the source name and
    holds the encoded buffer.  The two unnamed revisions contain the
    [createIfNotExists] step.  [src/functions/ProcessImage.ts] does not,
    but it never has an encoded buffer either: [getBufferAsync] waits for a
    callback that the [getBuffer] of the imported jimp release never
    invokes. *)
Theorem upload_follows_createIfNotExists :
  forall (rev : Revision) (event : EventGridEvent) (w : W),
    (rev = FunctionsTs ->
     forall image, getBuffer_cb sdk image "image/png" = NeverCalledBack) ->
    let r := ProcessImage_of rev sdk env event (start w) in
    (forall (s : BlobServiceClient),
        fromConnectionString sdk (env "AzureWebJobsStorage") = inr s ->
        containerClient_error sdk s (env "PROCESSED_BLOB_CONTAINER_NAME")
        = None ->
        In (Info [LStr "Processed image buffer ready"]) (logs (fst r)) ->
        In (CreateIfNotExists
              (mkContainer s (env "PROCESSED_BLOB_CONTAINER_NAME")))
           (calls (fst r)))
    /\ forall (b : BlockBlobClient) (body : Buffer) (n : nat),
        In (Upload b body n) (calls (fst r)) ->
        exists pre w0 w1 created segments blobName image,
          calls (fst r)
          = pre ++ [CreateIfNotExists (container b);
                    GetBlockBlobClient (container b) (name b);
                    Upload b body n]
          /\ existsb is_upload pre = false
          /\ createIfNotExists sdk (container b) w0 = (w1, Resolved created)
          /\ world (fst r) = fst (upload sdk b body n w1)
          /\ container_name (container b)
             = env "PROCESSED_BLOB_CONTAINER_NAME"
          /\ split_method (data_url event) = inr segments
          /\ pop segments = Some blobName
          /\ name b = processedBlobName blobName
          /\ getBuffer sdk image "image/jpeg" = Resolved body
          /\ n = List.length body.
Proof.
  intros rev event w Hcb; destruct rev; cbv zeta; unfold_handlers;
    run_handler; try never_called_back Hcb;
    (split;
     [ intros client Hclient Hdest HIn; in_log HIn;
       same_client Hclient; try congruence;
       simpl; repeat (first [left; reflexivity | right])
     | intros blob buf len HIn; in_trace HIn;
       inversion HIn; subst; clear HIn;
       eexists (_ :: _ :: _ :: _ :: _ :: nil); repeat eexists; eauto;
       cbn;
       match goal with
       | H : upload sdk _ _ _ _ = _ |- _ => now rewrite H
       end ]).
Qed.

(** C5 (as amended): a run whose connection credential is unset or empty
    fails before any call goes over the network, in every revision: the
    handler hands the credential to
    [BlobServiceClient.fromConnectionString], which throws on it.  A run
    whose [BLOB_CONTAINER_NAME] is unset or empty fails before any network
    call in the two revisions that test [containerName].
    [src/functions/ProcessImage.ts] has no test of its own: on the empty
    string it fails before any network call only because
    [getContainerClient] throws, and with the variable unset its fourth
    storage call is the download from the container client built on
    [undefined]. *)
Theorem empty_credential_or_container_fails_before_network :
  forall (rev : Revision) (event : EventGridEvent) (w : W),
    let r := ProcessImage_of rev sdk env event (start w) in
    ((forall cs, truthyOpt cs = false ->
                 exists e, fromConnectionString sdk cs = inl e) ->
     truthyOpt (env "AzureWebJobsStorage") = false
     \/ (truthyOpt (env "BLOB_CONTAINER_NAME") = false
         /\ (rev = FunctionsTs ->
             env "BLOB_CONTAINER_NAME" <> None
             /\ forall s, containerClient_error sdk s (Some "") <> None)) ->
     (exists reason, run_outcome r = Some (Failed reason))
     /\ existsb is_network_call (calls (fst r)) = false
     /\ world (fst r) = w)
    /\ (rev = FunctionsTs ->
        forall (u blobName : string) (client : BlobServiceClient),
          data_url event = JsString u ->
          u <> "" ->
          pop (split "/"%char u) = Some blobName ->
          blobName <> "" ->
          fromConnectionString sdk (env "AzureWebJobsStorage") = inr client ->
          env "BLOB_CONTAINER_NAME" = None ->
          containerClient_error sdk client None = None ->
          blockBlobClient_error sdk (mkContainer client None) blobName
          = None ->
          nth_error (calls (fst r)) 3
          = Some (Download (mkBlob (mkContainer client None) blobName))).
Proof.
  intros rev event w. cbv zeta. split.
  - intros Hfactory [Hcred | [Hc Hfun]].
    + destruct (Hfactory _ Hcred) as [e He].
      destruct rev; unfold_handlers; run_handler; try congruence;
        repeat split; eauto.
    + destruct rev.
      * destruct (Hfun eq_refl) as [Hset Hsdk].
        destruct (env "BLOB_CONTAINER_NAME") as [c|] eqn:Ec;
          [|congruence].
        simpl in Hc. apply negb_false_iff, String.eqb_eq in Hc. subst c.
        unfold_handlers; cbv zeta; rewrite ?Ec; run_handler;
          try match goal with
              | H : containerClient_error sdk ?s (Some "") = None |- _ =>
                  now elim (Hsdk s)
              end;
          repeat split; eauto.
      * unfold_handlers; run_handler;
          try match goal with
              | H : negb (truthyOpt _) = false |- _ =>
                  rewrite Hc in H; discriminate H
              end;
          repeat split; eauto.
      * unfold_handlers; run_handler;
          try match goal with
              | H : negb (truthyOpt _) = false |- _ =>
                  rewrite Hc in H; discriminate H
              end;
          repeat split; eauto.
  - intros -> u blobName client Hurl Hu Hpop Hname Hclient Hunset Hcc Hbb.
    assert (Eu : (u =? "") = false) by now apply String.eqb_neq.
    assert (En : (blobName =? "") = false) by now apply String.eqb_neq.
    unfold_handlers; cbv zeta; rewrite Hurl, ?Hunset;
      unfold_async; cbn; rewrite ?Eu; cbn; rewrite !Hpop; cbn;
      rewrite ?En; cbn; rewrite Hclient; cbn; rewrite Hcc; cbn;
      rewrite Hbb; cbn;
      repeat (destruct_scrutinee; cbn); reflexivity.
Qed.

(** C7: for a source URL whose text after the last ['/'] is [seg], the
    identity extracted by [split('/').pop()] is [seg] itself, the
    destination name is the literal ["processed-"] followed by [seg],
    character for character, and every write of every revision goes to a
    blob of that name; [.../in/cat.png] gives [processed-cat.png]. *)
Theorem destination_name_is_processed_final_segment :
  forall (rev : Revision) (event : EventGridEvent) (w : W)
         (pre seg : string) (b : BlockBlobClient) (body : Buffer) (n : nat),
    data_url event = JsString (pre ++ "/" ++ seg) ->
    contains "/"%char seg = false ->
    let r := ProcessImage_of rev sdk env event (start w) in
    pop (split "/"%char (pre ++ "/" ++ seg)) = Some seg
    /\ processedBlobName seg = ("processed-" ++ seg)%string
    /\ (In (Upload b body n) (calls (fst r)) ->
        name b = ("processed-" ++ seg)%string)
    /\ option_map processedBlobName
         (pop (split "/"%char
                 "https://acct.blob.core.windows.net/in/cat.png"))
       = Some "processed-cat.png".
Proof.
  intros rev event w pre seg b body n Hurl Hseg. cbv zeta.
  assert (Hpop : pop (split "/"%char (pre ++ "/" ++ seg)) = Some seg)
    by exact (pop_split_final_segment pre seg Hseg).
  split; [exact Hpop|]. split; [reflexivity|]. split; [|reflexivity].
  destruct rev; unfold_handlers; cbv zeta; rewrite Hurl;
    unfold_async; cbn; rewrite !Hpop; cbn;
    repeat (destruct_scrutinee; cbn);
    intros HIn; in_trace HIn; now inversion HIn.
Qed.

(** C10: a non-empty [data.url] with no ['/'] in it is its own final
    segment, so no guard of the handler stops the run: once the storage
    client is built, the container name passes the revision's test where
    there is one, and the SDK builds the two clients, the handler asks the
    source container for a blob named by the whole string and downloads
    it. *)
Theorem url_without_slash_is_fetched_whole :
  forall (rev : Revision) (event : EventGridEvent) (w : W)
         (u : string) (client : BlobServiceClient),
    data_url event = JsString u ->
    u <> "" ->
    contains "/"%char u = false ->
    fromConnectionString sdk (env "AzureWebJobsStorage") = inr client ->
    rev = FunctionsTs \/ truthyOpt (env "BLOB_CONTAINER_NAME") = true ->
    let r := ProcessImage_of rev sdk env event (start w) in
    let c := mkContainer client (env "BLOB_CONTAINER_NAME") in
    containerClient_error sdk client (env "BLOB_CONTAINER_NAME") = None ->
    blockBlobClient_error sdk c u = None ->
    pop (split "/"%char u) = Some u
    /\ exists rest,
         calls (fst r)
         = [FromConnectionString (env "AzureWebJobsStorage");
            GetContainerClient client (env "BLOB_CONTAINER_NAME");
            GetBlockBlobClient c u;
            Download (mkBlob c u)] ++ rest.
Proof.
  intros rev event w u client Hurl Hne Hslash Hclient Hguard. cbv zeta.
  intros Hcc Hbb.
  assert (Hpop : pop (split "/"%char u) = Some u)
    by now rewrite split_no_separator.
  assert (He : (u =? "") = false) by now apply String.eqb_neq.
  split; [exact Hpop|].
  destruct rev; destruct Hguard as [Hrev | Hc]; try discriminate Hrev;
    unfold_handlers; cbv zeta; rewrite Hurl;
    unfold_async; cbn; rewrite ?He; cbn; rewrite !Hpop; cbn;
    rewrite ?He; cbn; rewrite Hclient; cbn; rewrite ?Hc; cbn;
    rewrite Hcc; cbn; rewrite Hbb; cbn;
    repeat (destruct_scrutinee; cbn);
    eexists; reflexivity.
Qed.
End Runs.

(** ** The properties on the reference account *)

(** A run on a notification without [data]: nothing is called. *)
Lemma missing_url_witness :
  missing_or_empty (data_url (mkEvent None))
  /\ let r := ProcessImage_of FunctionsTs Reference.sdk Reference.env
                (mkEvent None) (start Reference.account) in
     run_outcome r
     = Some (Failed "Failed to process image: Error: Missing blob URL")
     /\ calls (fst r) = []
     /\ world (fst r) = Reference.account.
Proof.
  split; [left; reflexivity|].
  apply (missing_url_fails_without_storage_calls Reference.sdk Reference.env
           FunctionsTs (mkEvent None) Reference.account).
  left; reflexivity.
Defined.

(** A run on a notification whose URL is a number: the [TypeError] of
    [split] is caught like any other error, and the run returns. *)
Lemma never_rejects_witness :
  exists st',
    ProcessImage_of Part001Ts Reference.sdk Reference.env
      (mkEvent (Some (mkData (JsNumber 5)))) (start Reference.account)
    = (st', Resolved tt)
    /\ last (logs st') (Info [])
       = Failure
           "Failed to process image: TypeError: blobUrl.split is not a function".
Proof.
  eexists. split.
  - exact (proj2 (ProcessImage_never_rejects Reference.sdk Reference.env
                    Part001Ts (mkEvent (Some (mkData (JsNumber 5))))
                    (start Reference.account))).
  - reflexivity.
Defined.

(** The successful run of the 124-line revision on [in/cat.png]. *)
Lemma published_jpeg_witness :
  let r := ProcessImage_of Part001Ts Reference.sdk Reference.env
             Reference.cat_event (start Reference.account) in
  run_outcome r = Some Success
  /\ exists source w1 resp bytes decoded image body dest,
       download Reference.sdk source Reference.account = (w1, Resolved resp)
       /\ streamToBuffer (readableStreamBody resp) = Resolved bytes
       /\ Jimp_read Reference.sdk bytes = Resolved decoded
       /\ greyscale Reference.sdk decoded = inr image
       /\ getBuffer Reference.sdk image "image/jpeg" = Resolved body
       /\ filter is_upload (calls (fst r))
          = [Upload dest body (List.length body)].
Proof.
  split; [reflexivity|].
  exact (published_bytes_are_jpeg_encoding Reference.sdk Reference.env
           Part001Ts Reference.cat_event Reference.account
           (fun _ _ => eq_refl) eq_refl).
Defined.

(** The write of the 124-line revision on [in/cat.png] comes right after
    the completed [createIfNotExists] on [out]. *)
Lemma upload_follows_createIfNotExists_witness :
  let r := ProcessImage_of Part001Ts Reference.sdk Reference.env
             Reference.cat_event (start Reference.account) in
  let b := Reference.processed_cat in
  let body := [xff; x01; x02; x03] in
  In (Upload b body 4) (calls (fst r))
  /\ exists pre w0 w1 created segments blobName image,
       calls (fst r)
       = pre ++ [CreateIfNotExists (container b);
                 GetBlockBlobClient (container b) (name b);
                 Upload b body 4]
       /\ existsb is_upload pre = false
       /\ createIfNotExists Reference.sdk (container b) w0
          = (w1, Resolved created)
       /\ world (fst r) = fst (upload Reference.sdk b body 4 w1)
       /\ container_name (container b)
          = Reference.env "PROCESSED_BLOB_CONTAINER_NAME"
       /\ split_method (data_url Reference.cat_event) = inr segments
       /\ pop segments = Some blobName
       /\ name b = processedBlobName blobName
       /\ getBuffer Reference.sdk image "image/jpeg" = Resolved body
       /\ 4 = List.length body.
Proof.
  cbv zeta.
  assert (HIn : In (Upload Reference.processed_cat [xff; x01; x02; x03] 4)
                  (calls (fst (ProcessImage_of Part001Ts Reference.sdk
                                 Reference.env Reference.cat_event
                                 (start Reference.account)))))
    by (vm_compute; do 7 right; left; reflexivity).
  split; [exact HIn|].
  exact (proj2 (upload_follows_createIfNotExists Reference.sdk Reference.env
                  Part001Ts Reference.cat_event Reference.account
                  (fun _ _ => eq_refl))
           Reference.processed_cat [xff; x01; x02; x03] 4 HIn).
Defined.

(** A run of [src/functions/ProcessImage.ts] with [BLOB_CONTAINER_NAME]
    set to the empty string: [getContainerClient] throws. *)
Lemma empty_container_witness :
  let r := ProcessImage_of FunctionsTs Reference.sdk
             Reference.env_empty_container Reference.cat_event
             (start Reference.account) in
  truthyOpt (Reference.env_empty_container "BLOB_CONTAINER_NAME") = false
  /\ (exists reason, run_outcome r = Some (Failed reason))
  /\ existsb is_network_call (calls (fst r)) = false
  /\ world (fst r) = Reference.account.
Proof.
  split; [reflexivity|].
  apply (proj1 (empty_credential_or_container_fails_before_network
                  Reference.sdk Reference.env_empty_container
                  FunctionsTs Reference.cat_event Reference.account)).
  - intros [c|] H; simpl in *.
    + apply negb_false_iff in H. rewrite H. eexists; reflexivity.
    + eexists; reflexivity.
  - right. split; [reflexivity|].
    intros _. split; [discriminate|]. intros s. cbn. discriminate.
Defined.

(** C5, counterexample: [src/functions/ProcessImage.ts] does not test the
    container name; with [BLOB_CONTAINER_NAME] unset it builds a container
    client on [undefined] and sends the download to it. *)
Lemma functions_ts_fetches_with_unset_container :
  let r := Functions.ProcessImage Reference.sdk Reference.env_no_container
             Reference.cat_event (start Reference.account) in
  truthyOpt (Reference.env_no_container "BLOB_CONTAINER_NAME") = false
  /\ nth_error (calls (fst r)) 3
     = Some (Download (mkBlob (mkContainer Reference.dev_service None)
                         "cat.png"))
  /\ existsb is_network_call (calls (fst r)) = true.
Proof.
  cbv zeta. repeat split.
Qed.

(** The destination name for [.../in/cat.png] on a run of the 124-line
    revision. *)
Lemma destination_name_witness :
  let r := ProcessImage_of Part001Ts Reference.sdk Reference.env
             Reference.cat_event (start Reference.account) in
  let pre := "https://acct.blob.core.windows.net/in" in
  let b := Reference.processed_cat in
  let body := [xff; x01; x02; x03] in
  (data_url Reference.cat_event = JsString (pre ++ "/" ++ "cat.png")
   /\ contains "/"%char "cat.png" = false
   /\ In (Upload b body 4) (calls (fst r)))
  /\ pop (split "/"%char (pre ++ "/" ++ "cat.png")) = Some "cat.png"
  /\ name b = "processed-cat.png".
Proof.
  cbv zeta.
  assert (HIn : In (Upload Reference.processed_cat [xff; x01; x02; x03] 4)
                  (calls (fst (ProcessImage_of Part001Ts Reference.sdk
                                 Reference.env Reference.cat_event
                                 (start Reference.account)))))
    by (vm_compute; do 7 right; left; reflexivity).
  split; [split; [reflexivity | split; [reflexivity | exact HIn]]|].
  destruct (destination_name_is_processed_final_segment
              Reference.sdk Reference.env Part001Ts
              Reference.cat_event Reference.account
              "https://acct.blob.core.windows.net/in" "cat.png"
              Reference.processed_cat [xff; x01; x02; x03] 4
              eq_refl eq_refl)
    as (Hpop & _ & Hname & _).
  split; [exact Hpop | exact (Hname HIn)].
Defined.

(** A notification whose URL is the bare name [cat.png]. *)
Lemma url_without_slash_witness :
  let event := Reference.created "cat.png" in
  let r := ProcessImage_of Part001Ts Reference.sdk Reference.env event
             (start Reference.account) in
  let c := mkContainer Reference.dev_service
             (Reference.env "BLOB_CONTAINER_NAME") in
  pop (split "/"%char "cat.png") = Some "cat.png"
  /\ exists rest,
       calls (fst r)
       = [FromConnectionString (Reference.env "AzureWebJobsStorage");
          GetContainerClient Reference.dev_service
            (Reference.env "BLOB_CONTAINER_NAME");
          GetBlockBlobClient c "cat.png";
          Download (mkBlob c "cat.png")] ++ rest.
Proof.
  apply (url_without_slash_is_fetched_whole Reference.sdk Reference.env
           Part001Ts (Reference.created "cat.png") Reference.account
           "cat.png" Reference.dev_service).
  - reflexivity.
  - discriminate.
  - reflexivity.
  - reflexivity.
  - right; reflexivity.
  - reflexivity.
  - reflexivity.
Defined.

(** * Further properties of the handlers *)

(** ** More on the stream collector *)

(** X1: when a present byte source signals an error before any end of
    stream, [streamToBuffer] rejects with that error; the chunks collected
    so far are dropped and nothing the source emits afterwards matters. *)
Theorem streamToBuffer_error_rejects :
  forall (cs : list Chunk) (e : JsError) (rest : list StreamEvent),
    streamToBuffer (Some (map EvData cs ++ EvError e :: rest)) = Rejected e.
Proof.
  intros cs e rest. unfold streamToBuffer. simpl.
  rewrite fold_deliver_data by reflexivity. simpl.
  now rewrite fold_deliver_settled by discriminate.
Qed.

(** X2: a present byte source that delivers chunks but neither ends nor
    fails leaves the promise of [streamToBuffer] pending: there is no
    timeout and no other way out of the collector. *)
Theorem streamToBuffer_without_end_is_pending :
  forall (cs : list Chunk),
    streamToBuffer (Some (map EvData cs)) = Pending.
Proof.
  intros cs. unfold streamToBuffer. simpl.
  rewrite <- (app_nil_r (map EvData cs)).
  now rewrite fold_deliver_data by reflexivity.
Qed.

(** ** More on identity extraction *)

(** What [split] then [pop] returns never contains the separator. *)
Lemma pop_split_no_separator (sep : ascii) (s n : string) :
  pop (split sep s) = Some n -> contains sep n = false.
Proof.
  revert n. induction s as [|c rest IH]; simpl; intros n H.
  - now inversion H.
  - destruct (Ascii.eqb c sep) eqn:Ec.
    + rewrite pop_cons in H by apply split_not_nil. now apply IH.
    + destruct (split sep rest) as [|seg [|seg' segs]] eqn:Es.
      * now apply split_not_nil in Es.
      * inversion H; subst. simpl. rewrite Ec. simpl. now apply IH.
      * rewrite pop_cons2 in H. apply IH. now rewrite pop_cons2.
Qed.

(** A string that ends in the separator has an empty last segment. *)
Lemma pop_split_trailing (sep : ascii) (pre : string) :
  pop (split sep (pre ++ String sep EmptyString)) = Some EmptyString.
Proof.
  rewrite pop_split_after. reflexivity.
Qed.

Section MoreRuns.
Context {Image W : Type} (sdk : Collaborators Image W) (env : Env).

Local Arguments String.append : simpl never.
Local Arguments errToString : simpl never.
Local Arguments showValue : simpl never.
Local Arguments showOpt : simpl never.
Local Arguments processedBlobName : simpl never.
Local Arguments streamToBuffer : simpl never.
Local Arguments split : simpl never.
Local Arguments pop : simpl never.

(** X3: a source URL that ends in ['/'] has an empty final segment; every
    revision then fails with the missing-name input error before it
    touches the storage SDK. *)
Theorem trailing_slash_fails_without_storage_calls :
  forall (rev : Revision) (event : EventGridEvent) (w : W) (pre : string),
    data_url event = JsString (pre ++ "/") ->
    let r := ProcessImage_of rev sdk env event (start w) in
    run_outcome r
    = Some (Failed "Failed to process image: Error: Missing blob name")
    /\ calls (fst r) = []
    /\ world (fst r) = w.
Proof.
  intros rev event w pre Hurl. cbv zeta.
  assert (He : (pre ++ "/" =? "") = false) by now destruct pre.
  destruct rev; unfold_handlers; cbv zeta; rewrite Hurl;
    unfold_async; cbn; rewrite ?He; cbn;
    rewrite !(pop_split_trailing "/"%char pre); cbn; auto.
Qed.

(** X4: a [data.url] that is truthy but not a string (a number, [true], an
    object) has no [split] method; the [TypeError] is caught like any
    thrown error and the run fails before it touches the storage SDK. *)
Theorem non_string_url_fails_without_storage_calls :
  forall (rev : Revision) (event : EventGridEvent) (w : W),
    truthy (data_url event) = true ->
    (forall s, data_url event <> JsString s) ->
    let r := ProcessImage_of rev sdk env event (start w) in
    run_outcome r
    = Some (Failed
              "Failed to process image: TypeError: blobUrl.split is not a function")
    /\ calls (fst r) = []
    /\ world (fst r) = w.
Proof.
  intros rev event w Ht Hs. cbv zeta.
  destruct (data_url event) as [| |[|]|n|s|] eqn:Hurl;
    try discriminate Ht; try (now elim (Hs s)); cbn in Ht;
    destruct rev; unfold_handlers; cbv zeta; rewrite Hurl;
    unfold_async; cbn; rewrite ?Ht; cbn; auto.
Qed.

(** X5: whatever the URL, a download is only ever asked of the container
    named by [BLOB_CONTAINER_NAME], for a blob whose name is the non-empty
    text after the last ['/'] of the URL; that name never contains a ['/'],
    so a blob inside a virtual directory is looked up by its base name. *)
Theorem download_targets_final_segment :
  forall (rev : Revision) (event : EventGridEvent) (w : W)
         (src : BlockBlobClient),
    let r := ProcessImage_of rev sdk env event (start w) in
    In (Download src) (calls (fst r)) ->
    exists u,
      data_url event = JsString u
      /\ pop (split "/"%char u) = Some (name src)
      /\ contains "/"%char (name src) = false
      /\ name src <> ""
      /\ container_name (container src) = env "BLOB_CONTAINER_NAME"
      /\ fromConnectionString sdk (env "AzureWebJobsStorage")
         = inr (service (container src)).
Proof.
  intros rev event w src. cbv zeta.
  destruct (data_url event) as [| |[|]|n|u|] eqn:Hurl;
    destruct rev; unfold_handlers; cbv zeta; rewrite Hurl;
    run_handler; intros HIn; in_trace HIn;
    inversion HIn; subst; clear HIn; cbn;
    exists u; repeat split; auto;
    try (eapply pop_split_no_separator; eassumption);
    match goal with
    | H : negb (?s =? "") = true |- ?s <> "" =>
        intros ->; discriminate H
    end.
Qed.

(** X6: the storage calls of a run are always an initial part of the fixed
    sequence in which the revision's text makes them: no call is repeated or
    retried, none is made out of order, and a run stops calling at the first
    step that fails. *)
Theorem calls_follow_call_order :
  forall (rev : Revision) (event : EventGridEvent) (w : W),
    exists k,
      map call_kind (calls (fst (ProcessImage_of rev sdk env event (start w))))
      = firstn k (call_order rev).
Proof.
  intros rev event w.
  destruct rev; unfold_handlers; run_handler;
    first [ now exists 0 | now exists 1 | now exists 2 | now exists 3
          | now exists 4 | now exists 5 | now exists 6 | now exists 7
          | now exists 8 ].
Qed.

(** X7: in every revision a write is attempted only after the download,
    the collection of its body, the decoding, the greyscale step and the
    encoding have all succeeded; it goes to the container named by
    [PROCESSED_BLOB_CONTAINER_NAME] of the same storage client the source
    was read with, under [processed-] plus the source blob's name, and its
    length argument is the length of the buffer. *)
Theorem upload_only_after_all_stages :
  forall (rev : Revision) (event : EventGridEvent) (w : W)
         (dst : BlockBlobClient) (body : Buffer) (n : nat),
    let r := ProcessImage_of rev sdk env event (start w) in
    In (Upload dst body n) (calls (fst r)) ->
    exists src w1 resp bytes decoded image,
      In (Download src) (calls (fst r))
      /\ download sdk src w = (w1, Resolved resp)
      /\ streamToBuffer (readableStreamBody resp) = Resolved bytes
      /\ Jimp_read sdk bytes = Resolved decoded
      /\ greyscale sdk decoded = inr image
      /\ match rev with
         | FunctionsTs =>
             getBuffer_cb sdk image "image/png" = CalledBack None body
         | Part000Ts | Part001Ts =>
             getBuffer sdk image "image/jpeg" = Resolved body
         end
      /\ service (container dst) = service (container src)
      /\ container_name (container dst) = env "PROCESSED_BLOB_CONTAINER_NAME"
      /\ name dst = processedBlobName (name src)
      /\ n = List.length body.
Proof.
  intros rev event w dst body n. cbv zeta.
  destruct rev; unfold_handlers; run_handler; intros HIn; in_trace HIn;
    inversion HIn; subst; clear HIn;
    do 6 eexists; (split; [do 3 right; left; reflexivity|]);
    cbn; repeat split; eauto.
Qed.

(** X8: a run writes at most one line through [context.error]; a run that
    succeeds writes none, and a run that fails writes exactly its reason,
    which is ["Failed to process image: "] followed by the string form of
    the very error with which the [try] block ended. *)
Theorem failure_is_logged_once :
  forall (rev : Revision) (event : EventGridEvent) (w : W),
    let r := ProcessImage_of rev sdk env event (start w) in
    let entered :=
      mkRun w []
        [Info [LStr "Event grid function processed event:"; LEvent event]] in
    List.length (filter is_failure (logs (fst r))) <= 1
    /\ (run_outcome r = Some Success ->
        filter is_failure (logs (fst r)) = [])
    /\ (forall reason,
           run_outcome r = Some (Failed reason) ->
           filter is_failure (logs (fst r)) = [Failure reason]
           /\ exists e,
                snd (ProcessImage_try_of rev sdk env event entered)
                = Rejected e
                /\ reason
                   = ("Failed to process image: " ++ errToString e)%string).
Proof.
  intros rev event w. cbv zeta.
  destruct rev; unfold_handlers; run_handler;
    (split; [cbn; lia|]);
    (split; [intros H; try discriminate H; reflexivity|]);
    intros reason H; inversion H; subst;
    (split; [reflexivity | eexists; split; reflexivity]).
Qed.

(** X9: a run that succeeds ends with the write: the write is its last
    storage call, it was answered without error, the account is left as the
    write left it, and the last log line names the blob that was
    written. *)
Theorem success_ends_with_upload :
  forall (rev : Revision) (event : EventGridEvent) (w : W),
    let r := ProcessImage_of rev sdk env event (start w) in
    run_outcome r = Some Success ->
    exists dst body n w1,
      last (calls (fst r)) (FromConnectionString None) = Upload dst body n
      /\ upload sdk dst body n w1 = (world (fst r), Resolved tt)
      /\ last (logs (fst r)) (Info [])
         = Info [LStr ("Processed image uploaded to: " ++ name dst)].
Proof.
  intros rev event w. cbv zeta.
  destruct rev; unfold_handlers; run_handler; intros _;
    repeat match goal with u : unit |- _ => destruct u end;
    do 4 eexists; (split; [reflexivity|]);
    (split; [eassumption | reflexivity]).
Qed.

(** X10: the 124-line revision differs from the 95-line one in log lines
    only: on the same notification, environment and collaborators the two
    make the same storage calls, leave the account in the same state,
    settle the same way and end in the same outcome. *)
Theorem part000_part001_same_behaviour :
  forall (event : EventGridEvent) (w : W),
    let r0 := Part000.ProcessImage sdk env event (start w) in
    let r1 := Part001.ProcessImage sdk env event (start w) in
    calls (fst r0) = calls (fst r1)
    /\ world (fst r0) = world (fst r1)
    /\ snd r0 = snd r1
    /\ run_outcome r0 = run_outcome r1.
Proof.
  intros event w. cbv zeta.
  unfold_handlers; run_handler; repeat split.
Qed.

(** X11: [getBufferAsync] settles only from inside the callback it hands
    to [image.getBuffer].  With an image library that never invokes that
    callback, no run of [src/functions/ProcessImage.ts] succeeds and none
    reaches the write. *)
Theorem functions_ts_needs_the_callback :
  forall (event : EventGridEvent) (w : W),
    (forall image, getBuffer_cb sdk image "image/png" = NeverCalledBack) ->
    let r := Functions.ProcessImage sdk env event (start w) in
    run_outcome r <> Some Success
    /\ existsb is_upload (calls (fst r)) = false.
Proof.
  intros event w Hcb. cbv zeta.
  unfold_handlers; run_handler;
    try match goal with
        | H : getBuffer_cb sdk _ "image/png" = _ |- _ =>
            rewrite Hcb in H; discriminate H
        end;
    split; try reflexivity; discriminate.
Qed.

(** X12: when the download is refused, the run fails with the text of the
    cause; the download is the only call that went over the network (it is
    not retried), and the account is left as the download left it. *)
Theorem download_failure_is_reported :
  forall (rev : Revision) (event : EventGridEvent) (w w' : W)
         (src : BlockBlobClient) (e : JsError),
    let r := ProcessImage_of rev sdk env event (start w) in
    In (Download src) (calls (fst r)) ->
    download sdk src w = (w', Rejected e) ->
    run_outcome r
    = Some (Failed ("Failed to process image: " ++ errToString e))
    /\ filter is_network_call (calls (fst r)) = [Download src]
    /\ world (fst r) = w'.
Proof.
  intros rev event w w' src e. cbv zeta.
  destruct rev; unfold_handlers; run_handler; intros HIn Hd; in_trace HIn;
    inversion HIn; subst; clear HIn;
    repeat split; congruence.
Qed.

(** X13: when the body of the download cannot be collected (the source
    signals an error, or there is no body at all), the run fails with the
    text of that error and makes no further call over the network: the
    image library is never given a partial buffer and nothing is
    written. *)
Theorem collect_failure_is_reported :
  forall (rev : Revision) (event : EventGridEvent) (w w' : W)
         (src : BlockBlobClient) (resp : BlobDownloadResponse) (e : JsError),
    let r := ProcessImage_of rev sdk env event (start w) in
    In (Download src) (calls (fst r)) ->
    download sdk src w = (w', Resolved resp) ->
    streamToBuffer (readableStreamBody resp) = Rejected e ->
    run_outcome r
    = Some (Failed ("Failed to process image: " ++ errToString e))
    /\ filter is_network_call (calls (fst r)) = [Download src]
    /\ world (fst r) = w'.
Proof.
  intros rev event w w' src resp e. cbv zeta.
  destruct rev; unfold_handlers; run_handler; intros HIn Hd Hs;
    in_trace HIn; inversion HIn; subst; clear HIn;
    repeat split; congruence.
Qed.

(** X14: when the collected bytes are not an image the library can read,
    the run fails with the text of the decoder's error and nothing is
    written: the download stays the only call over the network. *)
Theorem decode_failure_is_reported :
  forall (rev : Revision) (event : EventGridEvent) (w w' : W)
         (src : BlockBlobClient) (resp : BlobDownloadResponse)
         (bytes : Buffer) (e : JsError),
    let r := ProcessImage_of rev sdk env event (start w) in
    In (Download src) (calls (fst r)) ->
    download sdk src w = (w', Resolved resp) ->
    streamToBuffer (readableStreamBody resp) = Resolved bytes ->
    Jimp_read sdk bytes = Rejected e ->
    run_outcome r
    = Some (Failed ("Failed to process image: " ++ errToString e))
    /\ filter is_network_call (calls (fst r)) = [Download src]
    /\ world (fst r) = w'.
Proof.
  intros rev event w w' src resp bytes e. cbv zeta.
  destruct rev; unfold_handlers; run_handler; intros HIn Hd Hs Hj;
    in_trace HIn; inversion HIn; subst; clear HIn;
    repeat split; congruence.
Qed.

(** X15: the handler sets no time limit on the collection.  When the body
    of the download never ends and never fails, the invocation stays
    pending: it has no outcome, it writes no error line, and it makes no
    call after the download. *)
Theorem stalled_body_leaves_run_pending :
  forall (rev : Revision) (event : EventGridEvent) (w w' : W)
         (src : BlockBlobClient) (resp : BlobDownloadResponse),
    let r := ProcessImage_of rev sdk env event (start w) in
    In (Download src) (calls (fst r)) ->
    download sdk src w = (w', Resolved resp) ->
    streamToBuffer (readableStreamBody resp) = Pending ->
    snd r = Pending
    /\ run_outcome r = None
    /\ filter is_failure (logs (fst r)) = []
    /\ last (calls (fst r)) (FromConnectionString None) = Download src.
Proof.
  intros rev event w w' src resp. cbv zeta.
  destruct rev; unfold_handlers; run_handler; intros HIn Hd Hs;
    in_trace HIn; inversion HIn; subst; clear HIn;
    repeat split; congruence.
Qed.
End MoreRuns.

(** ** The further properties on the reference account *)

(** A notification for the container itself: the URL ends in ['/']. *)
Lemma trailing_slash_witness :
  let event := Reference.created "https://acct.blob.core.windows.net/in/" in
  let r := ProcessImage_of Part000Ts Reference.sdk Reference.env event
             (start Reference.account) in
  run_outcome r
  = Some (Failed "Failed to process image: Error: Missing blob name")
  /\ calls (fst r) = []
  /\ world (fst r) = Reference.account.
Proof.
  exact (trailing_slash_fails_without_storage_calls Reference.sdk
           Reference.env Part000Ts
           (Reference.created "https://acct.blob.core.windows.net/in/")
           Reference.account "https://acct.blob.core.windows.net/in"
           eq_refl).
Defined.

(** A notification whose URL is the number 5. *)
Lemma non_string_url_witness :
  let event := mkEvent (Some (mkData (JsNumber 5))) in
  let r := ProcessImage_of FunctionsTs Reference.sdk Reference.env event
             (start Reference.account) in
  truthy (data_url event) = true
  /\ run_outcome r
     = Some (Failed
               "Failed to process image: TypeError: blobUrl.split is not a function")
  /\ calls (fst r) = []
  /\ world (fst r) = Reference.account.
Proof.
  split; [reflexivity|].
  apply (non_string_url_fails_without_storage_calls Reference.sdk
           Reference.env FunctionsTs (mkEvent (Some (mkData (JsNumber 5))))
           Reference.account).
  - reflexivity.
  - intros s; discriminate.
Defined.

(** A blob announced under a virtual directory is looked up by its base
    name. *)
Lemma download_targets_witness :
  let event :=
    Reference.created "https://acct.blob.core.windows.net/in/2024/cat.png" in
  let r := ProcessImage_of Part001Ts Reference.sdk Reference.env event
             (start Reference.account) in
  In (Download Reference.source_cat) (calls (fst r))
  /\ exists u,
       data_url event = JsString u
       /\ pop (split "/"%char u) = Some (name Reference.source_cat)
       /\ contains "/"%char (name Reference.source_cat) = false
       /\ name Reference.source_cat <> ""
       /\ container_name (container Reference.source_cat)
          = Reference.env "BLOB_CONTAINER_NAME"
       /\ fromConnectionString Reference.sdk
            (Reference.env "AzureWebJobsStorage")
          = inr (service (container Reference.source_cat)).
Proof.
  cbv zeta.
  assert (HIn : In (Download Reference.source_cat)
                  (calls (fst (ProcessImage_of Part001Ts Reference.sdk
                                 Reference.env
                                 (Reference.created
                                    "https://acct.blob.core.windows.net/in/2024/cat.png")
                                 (start Reference.account)))))
    by (vm_compute; do 3 right; left; reflexivity).
  split; [exact HIn|].
  exact (download_targets_final_segment Reference.sdk Reference.env
           Part001Ts _ Reference.account Reference.source_cat HIn).
Defined.

(** The write of the 124-line revision on [in/cat.png]. *)
Lemma upload_only_after_all_stages_witness :
  let r := ProcessImage_of Part001Ts Reference.sdk Reference.env
             Reference.cat_event (start Reference.account) in
  let dst := Reference.processed_cat in
  let body := [xff; x01; x02; x03] in
  In (Upload dst body 4) (calls (fst r))
  /\ exists src w1 resp bytes decoded image,
       In (Download src) (calls (fst r))
       /\ download Reference.sdk src Reference.account = (w1, Resolved resp)
       /\ streamToBuffer (readableStreamBody resp) = Resolved bytes
       /\ Jimp_read Reference.sdk bytes = Resolved decoded
       /\ greyscale Reference.sdk decoded = inr image
       /\ getBuffer Reference.sdk image "image/jpeg" = Resolved body
       /\ service (container dst) = service (container src)
       /\ container_name (container dst)
          = Reference.env "PROCESSED_BLOB_CONTAINER_NAME"
       /\ name dst = processedBlobName (name src)
       /\ 4 = List.length body.
Proof.
  cbv zeta.
  assert (HIn : In (Upload Reference.processed_cat [xff; x01; x02; x03] 4)
                  (calls (fst (ProcessImage_of Part001Ts Reference.sdk
                                 Reference.env Reference.cat_event
                                 (start Reference.account)))))
    by (vm_compute; do 7 right; left; reflexivity).
  split; [exact HIn|].
  exact (upload_only_after_all_stages Reference.sdk Reference.env
           Part001Ts Reference.cat_event Reference.account
           Reference.processed_cat [xff; x01; x02; x03] 4 HIn).
Defined.

(** The successful run of the 95-line revision on [in/cat.png]. *)
Lemma success_ends_with_upload_witness :
  let r := ProcessImage_of Part000Ts Reference.sdk Reference.env
             Reference.cat_event (start Reference.account) in
  run_outcome r = Some Success
  /\ exists dst body n w1,
       last (calls (fst r)) (FromConnectionString None) = Upload dst body n
       /\ upload Reference.sdk dst body n w1 = (world (fst r), Resolved tt)
       /\ last (logs (fst r)) (Info [])
          = Info [LStr ("Processed image uploaded to: " ++ name dst)].
Proof.
  split; [reflexivity|].
  exact (success_ends_with_upload Reference.sdk Reference.env Part000Ts
           Reference.cat_event Reference.account eq_refl).
Defined.

(** [src/functions/ProcessImage.ts] against an image library that never
    calls back. *)
Lemma functions_ts_needs_the_callback_witness :
  let r := Functions.ProcessImage Reference.sdk_silent_encoder Reference.env
             Reference.cat_event (start Reference.account) in
  snd r = Pending
  /\ run_outcome r <> Some Success
  /\ existsb is_upload (calls (fst r)) = false.
Proof.
  split; [reflexivity|].
  exact (functions_ts_needs_the_callback Reference.sdk_silent_encoder Reference.env
           Reference.cat_event Reference.account (fun _ => eq_refl)).
Defined.

(** A notification for a blob the account does not hold. *)
Lemma download_failure_witness :
  let event := Reference.created "https://acct.blob.core.windows.net/in/dog.png" in
  let r := ProcessImage_of Part001Ts Reference.sdk Reference.env event
             (start Reference.account) in
  let src := mkBlob (mkContainer Reference.dev_service (Some "in")) "dog.png" in
  run_outcome r
  = Some (Failed "Failed to process image: RestError: BlobNotFound")
  /\ filter is_network_call (calls (fst r)) = [Download src]
  /\ world (fst r) = Reference.account.
Proof.
  cbv zeta.
  apply (download_failure_is_reported Reference.sdk Reference.env Part001Ts
           (Reference.created "https://acct.blob.core.windows.net/in/dog.png")
           Reference.account Reference.account
           (mkBlob (mkContainer Reference.dev_service (Some "in")) "dog.png")
           (Reference.RestError "BlobNotFound")).
  - vm_compute; do 3 right; left; reflexivity.
  - reflexivity.
Defined.

(** A download response without a body: the collector's [TypeError] is
    what the run reports. *)
Lemma collect_failure_witness :
  let r := ProcessImage_of Part001Ts Reference.sdk_no_body Reference.env
             Reference.cat_event (start Reference.account) in
  run_outcome r
  = Some (Failed
            "Failed to process image: TypeError: Cannot read properties of null (reading 'on')")
  /\ filter is_network_call (calls (fst r)) = [Download Reference.source_cat]
  /\ world (fst r) = Reference.account.
Proof.
  cbv zeta.
  apply (collect_failure_is_reported Reference.sdk_no_body Reference.env Part001Ts
           Reference.cat_event Reference.account Reference.account
           Reference.source_cat (mkDownload None)
           (TypeError "Cannot read properties of null (reading 'on')")).
  - vm_compute; do 3 right; left; reflexivity.
  - reflexivity.
  - reflexivity.
Defined.

(** A text file announced as an image. *)
Lemma decode_failure_witness :
  let event :=
    Reference.created "https://acct.blob.core.windows.net/in/notes.txt" in
  let r := ProcessImage_of FunctionsTs Reference.sdk Reference.env event
             (start Reference.text_account) in
  let src :=
    mkBlob (mkContainer Reference.dev_service (Some "in")) "notes.txt" in
  run_outcome r
  = Some (Failed
            "Failed to process image: Error: Could not find MIME for Buffer")
  /\ filter is_network_call (calls (fst r)) = [Download src]
  /\ world (fst r) = Reference.text_account.
Proof.
  cbv zeta.
  apply (decode_failure_is_reported Reference.sdk Reference.env FunctionsTs
           (Reference.created
              "https://acct.blob.core.windows.net/in/notes.txt")
           Reference.text_account Reference.text_account
           (mkBlob (mkContainer Reference.dev_service (Some "in"))
              "notes.txt")
           (mkDownload (Some [EvData (ChunkBuffer [x68; x69]); EvEnd]))
           [x68; x69] (Error "Could not find MIME for Buffer")).
  - vm_compute; do 3 right; left; reflexivity.
  - reflexivity.
  - reflexivity.
  - reflexivity.
Defined.

(** A body that delivers one chunk and stalls. *)
Lemma stalled_body_witness :
  let r := ProcessImage_of Part000Ts Reference.sdk_stalled Reference.env
             Reference.cat_event (start Reference.account) in
  snd r = Pending
  /\ run_outcome r = None
  /\ filter is_failure (logs (fst r)) = []
  /\ last (calls (fst r)) (FromConnectionString None) = Download Reference.source_cat.
Proof.
  cbv zeta.
  apply (stalled_body_leaves_run_pending Reference.sdk_stalled Reference.env Part000Ts
           Reference.cat_event Reference.account Reference.account
           Reference.source_cat
           (mkDownload (Some [EvData (ChunkBuffer Reference.cat_png)]))).
  - vm_compute; do 3 right; left; reflexivity.
  - reflexivity.
  - reflexivity.
Defined.
